(** * Social logins: the OAuth service and its routes

    A shallow embedding of [src/app/services/oauth.py] and of the session
    routes of [src/app/routes/auth.py].  The session of a request is a Python
    dictionary that the service mutates in place; it is modelled as a finite
    map threaded through every call, together with the outcome of the call
    (a returned value or a raised exception).  The parties the service talks
    to (authlib's registered clients, the httpx client, the operating
    system's random source) are gathered in a record [World]. *)

From Stdlib Require Import ZArith String Ascii List Strings.Byte Lia.
From stdpp Require Import gmap strings list fin_maps pretty.

Local Open Scope string_scope.
Local Open Scope Z_scope.
#[local] Set Warnings "-register-all".

(** ** Python values *)

(** The values that travel through the session, the query string and the
    JSON bodies of the providers.  JSON numbers are kept as integers. *)
Inductive Value : Type :=
| VNone
| VBool (b : bool)
| VInt (n : Z)
| VStr (s : string)
| VList (l : list Value)
| VDict (d : list (string * Value)).

(** Python's truth value: what [not v] and [if v] test. *)
Definition truthy (v : Value) : bool :=
  match v with
  | VNone => false
  | VBool b => b
  | VInt n => negb (n =? 0)
  | VStr s => negb (String.eqb s "")
  | VList l => match l with [] => false | _ :: _ => true end
  | VDict d => match d with [] => false | _ :: _ => true end
  end.

(** [d.get(k)] on a JSON object read as an association list. *)
Fixpoint dict_get (k : string) (d : list (string * Value)) : option Value :=
  match d with
  | [] => None
  | (k', v) :: rest => if String.eqb k k' then Some v else dict_get k rest
  end.

(** The field [k] of a document, when the document is an object that has it. *)
Definition field (k : string) (v : Value) : option Value :=
  match v with
  | VDict d => dict_get k d
  | _ => None
  end.

(** ** Exceptions and outcomes *)

Inductive Exn : Type :=
| HTTPException (code : Z) (detail : string)
| OtherError (what : string).

Definition HTTP_400_BAD_REQUEST : Z := 400.

Inductive Outcome (A : Type) : Type :=
| Returned (a : A)
| Raised (e : Exn).
Arguments Returned {A} a.
Arguments Raised {A} e.

(** ** The session and the monad of the service *)

Abbreviation Session := (gmap string Value).

(** A computation reads and writes the session and either returns or raises;
    the writes made before an exception stay in the session. *)
Definition M (A : Type) : Type := Session -> Session * Outcome A.

Definition ret {A} (a : A) : M A := fun s => (s, Returned a).
Definition raise {A} (e : Exn) : M A := fun s => (s, Raised e).
Definition bind {A B} (m : M A) (k : A -> M B) : M B :=
  fun s =>
    match m s with
    | (s', Returned a) => k a s'
    | (s', Raised e) => (s', Raised e)
    end.
Definition lift {A} (o : Outcome A) : M A := fun s => (s, o).

Notation "x <~ c ;; k" := (bind c (fun x => k))
  (at level 100, c at next level, right associativity).

(** [session.get(k)]: [None] when the key is missing. *)
Definition session_get (k : string) : M Value :=
  fun s => (s, Returned (default VNone (s !! k))).

(** [session[k] = v]. *)
Definition session_set (k : string) (v : Value) : M unit :=
  fun s => (<[k := v]> s, Returned tt).

(** [session.pop(k, d)]: removes the key and returns its value, or returns
    [d] when the key is missing. *)
Definition session_pop (k : string) (d : Value) : M Value :=
  fun s => (delete k s, Returned (default d (s !! k))).

(** [session.clear()]. *)
Definition session_clear : M unit :=
  fun _ => (∅, Returned tt).

(** ** Requests and responses *)

Record Request : Type := {
  query_params : gmap string string;
  base_url : string
}.

(** [request.query_params.get(k)]. *)
Definition query_get (request : Request) (k : string) : Value :=
  match query_params request !! k with
  | Some v => VStr v
  | None => VNone
  end.

(** [request.url_for("auth_callback", provider=p)], the absolute URL of the
    route [/auth/{provider}/callback]. *)
Definition url_for_auth_callback (request : Request) (provider : string) : string :=
  base_url request ++ "/auth/" ++ provider ++ "/callback".

(** [request.url_for("failure")]. *)
Definition url_for_failure (request : Request) : string :=
  base_url request ++ "/failure".

(** A response as the routes and the tests read it: the [Location] header
    and the status. *)
Record Response : Type := {
  location : string;
  status : Z
}.

Record HttpResponse : Type := {
  status_code : Z;
  text : string;
  json : Outcome Value
}.

(** ** Providers and their registered clients *)

Module OAuthProvider.
Definition GOOGLE : string := "google".
Definition FACEBOOK : string := "facebook".
Definition LINKEDIN : string := "linkedin".
Definition members : list string := [GOOGLE; FACEBOOK; LINKEDIN].
End OAuthProvider.

(** The credentials of [src.config.settings]; the module is not part of the
    sources at hand, so its six values are taken as given. *)
Record Settings : Type := {
  GOOGLE_CLIENT_ID : string;
  GOOGLE_CLIENT_SECRET : string;
  FACEBOOK_CLIENT_ID : string;
  FACEBOOK_CLIENT_SECRET : string;
  LINKEDIN_CLIENT_ID : string;
  LINKEDIN_CLIENT_SECRET : string
}.

(** What [OAuth.register] is given for a client. *)
Record OAuthClient : Type := {
  name : string;
  client_id : string;
  client_secret : string;
  server_metadata_url : option string;
  access_token_url : option string;
  authorize_url : option string;
  api_base_url : option string;
  scope : string
}.

Definition _create_google_client (cfg : Settings) : OAuthClient :=
  {| name := "google";
     client_id := GOOGLE_CLIENT_ID cfg;
     client_secret := GOOGLE_CLIENT_SECRET cfg;
     server_metadata_url :=
       Some "https://accounts.google.com/.well-known/openid-configuration";
     access_token_url := None;
     authorize_url := None;
     api_base_url := None;
     scope := "openid email profile" |}.

Definition _create_facebook_client (cfg : Settings) : OAuthClient :=
  {| name := "facebook";
     client_id := FACEBOOK_CLIENT_ID cfg;
     client_secret := FACEBOOK_CLIENT_SECRET cfg;
     server_metadata_url := None;
     access_token_url := Some "https://graph.facebook.com/oauth/access_token";
     authorize_url := Some "https://www.facebook.com/dialog/oauth";
     api_base_url := Some "https://graph.facebook.com/v12.0/";
     scope := "email public_profile" |}.

Definition _create_linkedin_client (cfg : Settings) : OAuthClient :=
  {| name := "linkedin";
     client_id := LINKEDIN_CLIENT_ID cfg;
     client_secret := LINKEDIN_CLIENT_SECRET cfg;
     server_metadata_url := None;
     access_token_url := Some "https://www.linkedin.com/oauth/v2/accessToken";
     authorize_url := Some "https://www.linkedin.com/oauth/v2/authorization";
     api_base_url := Some "https://api.linkedin.com/v2/";
     scope := "openid profile email" |}.

(** [self.clients]: the dictionary from provider to registered client. *)
Definition _initialize_clients (cfg : Settings) : gmap string OAuthClient :=
  <[OAuthProvider.GOOGLE := _create_google_client cfg]>
  (<[OAuthProvider.FACEBOOK := _create_facebook_client cfg]>
  (<[OAuthProvider.LINKEDIN := _create_linkedin_client cfg]> ∅)).

(** ** The world around the service *)

(** What the collaborators answer during one request.  authlib's two
    redirect-flow calls receive the request and therefore its session; the
    two plain HTTP calls do not. *)
Record World : Type := {
  settings : Settings;
  os_urandom : nat -> list byte;
  authorize_redirect : OAuthClient -> Request -> string -> string -> M Response;
  authorize_access_token : OAuthClient -> Request -> M Value;
  client_get : OAuthClient -> string -> Value -> Outcome HttpResponse;
  httpx_post : string -> list (string * Value) -> Outcome HttpResponse
}.

Definition clients (w : World) : gmap string OAuthClient :=
  _initialize_clients (settings w).

(** ** [bytes.hex()] *)

Definition hex_digit (n : N) : ascii :=
  match n with
  | 0 => "0" | 1 => "1" | 2 => "2" | 3 => "3" | 4 => "4" | 5 => "5"
  | 6 => "6" | 7 => "7" | 8 => "8" | 9 => "9" | 10 => "a" | 11 => "b"
  | 12 => "c" | 13 => "d" | 14 => "e" | _ => "f"
  end%N%char.

Fixpoint hex (bs : list byte) : string :=
  match bs with
  | [] => ""
  | b :: rest =>
      String (hex_digit (Byte.to_N b / 16))
        (String (hex_digit (Byte.to_N b mod 16)) (hex rest))
  end.


Fixpoint all_chars (p : ascii -> bool) (s : string) : bool :=
  match s with
  | EmptyString => true
  | String c rest => p c && all_chars p rest
  end.

(** The value of a hexadecimal digit, and the byte that two digits spell: the
    reading back of [hex], by which [hex] is seen to lose nothing. *)
Definition unhex_digit (c : ascii) : N :=
  let n := N_of_ascii c in
  (if n <=? 57 then n - 48 else n - 87)%N.

Definition byte_of_hex (hi lo : ascii) : option byte :=
  Byte.of_N (unhex_digit hi * 16 + unhex_digit lo).

(** ** Redirect responses *)

Fixpoint occurs (c : ascii) (s : string) : bool :=
  match s with
  | EmptyString => false
  | String c' rest => Ascii.eqb c c' || occurs c rest
  end.

Definition upper_hex_digit (n : N) : ascii :=
  match n with
  | 0 => "0" | 1 => "1" | 2 => "2" | 3 => "3" | 4 => "4" | 5 => "5"
  | 6 => "6" | 7 => "7" | 8 => "8" | 9 => "9" | 10 => "A" | 11 => "B"
  | 12 => "C" | 13 => "D" | 14 => "E" | _ => "F"
  end%N%char.

(** The characters that [urllib.parse.quote] never escapes: the ASCII
    letters and digits and the four marks [_.-~]. *)
Definition always_safe (c : ascii) : bool :=
  let n := N_of_ascii c in
  ((65 <=? n) && (n <=? 90) || (97 <=? n) && (n <=? 122)
   || (48 <=? n) && (n <=? 57))%N
  || occurs c "_.-~".

(** [urllib.parse.quote(s, safe=safe)]: the string goes byte by byte (a
    string of the model is its UTF-8 bytes); a byte that is always safe or
    listed in [safe] stays, any other becomes [%XX] in upper-case
    hexadecimal. *)
Fixpoint quote (safe s : string) : string :=
  match s with
  | EmptyString => EmptyString
  | String c rest =>
      if always_safe c || occurs c safe then String c (quote safe rest)
      else
        String "%"
          (String (upper_hex_digit (N_of_ascii c / 16))
             (String (upper_hex_digit (N_of_ascii c mod 16)) (quote safe rest)))
  end.

Definition double_quote : ascii := ascii_of_N 34.
Definition backslash : ascii := ascii_of_N 92.

(** One character inside [repr] of a string delimited by [q]. *)
Definition repr_char (q c : ascii) : string :=
  let n := N_of_ascii c in
  if Ascii.eqb c q || Ascii.eqb c backslash then String backslash (String c "")
  else if (n =? 9)%N then String backslash "t"
  else if (n =? 10)%N then String backslash "n"
  else if (n =? 13)%N then String backslash "r"
  else if ((n <? 32) || (n =? 127))%N then
    String backslash
      (String "x" (String (hex_digit (n / 16)) (String (hex_digit (n mod 16)) "")))
  else String c "".

Fixpoint repr_chars (q : ascii) (s : string) : string :=
  match s with
  | EmptyString => EmptyString
  | String c rest => repr_char q c ++ repr_chars q rest
  end.

(** [repr] of a string: single quotes, unless the string has a single quote
    and no double quote.  The bytes above 127 are taken to spell printable
    characters, which [repr] leaves as they are. *)
Definition repr_str (s : string) : string :=
  let q := if occurs "'" s && negb (occurs double_quote s)
           then double_quote else "'"%char in
  String q (repr_chars q s ++ String q "").

(** [repr] of a value. *)
Fixpoint repr (v : Value) : string :=
  match v with
  | VNone => "None"
  | VBool true => "True"
  | VBool false => "False"
  | VInt n => pretty n
  | VStr s => repr_str s
  | VList l =>
      "[" ++ (fix items (l : list Value) : string :=
                match l with
                | [] => ""
                | x :: rest =>
                    match rest with
                    | [] => repr x
                    | _ :: _ => repr x ++ ", " ++ items rest
                    end
                end) l ++ "]"
  | VDict d =>
      "{" ++ (fix items (d : list (string * Value)) : string :=
                match d with
                | [] => ""
                | (k, x) :: rest =>
                    match rest with
                    | [] => repr_str k ++ ": " ++ repr x
                    | _ :: _ => repr_str k ++ ": " ++ repr x ++ ", " ++ items rest
                    end
                end) d ++ "}"
  end.

(** [str(v)]: a string is itself, any other value is spelled as by [repr]. *)
Definition py_str (v : Value) : string :=
  match v with
  | VStr s => s
  | _ => repr v
  end.

(** The characters that starlette's [RedirectResponse] lets through
    besides the always safe ones. *)
Definition redirect_safe : string := ":/%#?=@[]!$&'()*+,;".

(** A character that a redirect leaves as it is. *)
Definition url_safe (c : ascii) : bool :=
  always_safe c || occurs c redirect_safe.

(** [RedirectResponse(url)]: the [Location] header is
    [quote(str(url), safe=...)] and the default status is 307. *)
Definition RedirectResponse (url : Value) : Response :=
  {| location := quote redirect_safe (py_str url); status := 307 |}.

(** ** The service *)

Section Service.
Variable w : World.

(** [OAuthService.initiate_social_login].  The provider is given by its
    value, and the error message spells it by that value; [redirect_path] is
    the optional query parameter. *)
Definition initiate_social_login (provider : string) (request : Request)
    (redirect_path : option string) : M Response :=
  match clients w !! provider with
  | None =>
      raise (HTTPException HTTP_400_BAD_REQUEST
               ("Unsupported provider: " ++ provider))
  | Some oauth_client =>
      _ <~ (match redirect_path with
            | Some p =>
                if truthy (VStr p) then session_set "redirect_path" (VStr p)
                else ret tt
            | None => ret tt
            end) ;;
      let redirect_uri := url_for_auth_callback request provider in
      let state := hex (os_urandom w 16) in
      _ <~ session_set "oauth_state" (VStr state) ;;
      authorize_redirect w oauth_client request redirect_uri state
  end.

(** The form that [get_token] posts to LinkedIn's token endpoint. *)
Definition linkedin_token_data (request : Request) (provider : string)
    : list (string * Value) :=
  let authorization_code := query_get request "code" in
  let redirect_uri := url_for_auth_callback request provider in
  [("grant_type", VStr "authorization_code");
   ("code", authorization_code);
   ("redirect_uri", VStr redirect_uri);
   ("client_id", VStr (LINKEDIN_CLIENT_ID (settings w)));
   ("client_secret", VStr (LINKEDIN_CLIENT_SECRET (settings w)))].

(** [OAuthService.get_token]. *)
Definition get_token (request : Request) (provider : string)
    (oauth_client : OAuthClient) : M Value :=
  if String.eqb provider OAuthProvider.LINKEDIN then
    let token_data := linkedin_token_data request provider in
    token_response <~
      lift (httpx_post w "https://www.linkedin.com/oauth/v2/accessToken"
              token_data) ;;
    if negb (status_code token_response =? 200) then
      raise (HTTPException HTTP_400_BAD_REQUEST
               ("Failed to fetch access token: " ++ text token_response))
    else lift (json token_response)
  else authorize_access_token w oauth_client request.

(** The user-info endpoint that [fetch_user_data] asks, by client name. *)
Definition userinfo_url (oauth_client : OAuthClient) : string :=
  if String.eqb (name oauth_client) OAuthProvider.LINKEDIN then
    "https://api.linkedin.com/v2/userinfo"
  else if String.eqb (name oauth_client) OAuthProvider.FACEBOOK then
    "https://graph.facebook.com/v12.0/me?fields=id,name,email,picture"
  else "https://www.googleapis.com/oauth2/v1/userinfo".

(** [OAuthService.fetch_user_data]: every exception is caught and turned
    into [None]. *)
Definition fetch_user_data (oauth_client : OAuthClient) (token : Value) : Value :=
  match client_get w oauth_client (userinfo_url oauth_client) token with
  | Raised _ => VNone
  | Returned response =>
      if status_code response =? 200 then
        match json response with
        | Returned data => data
        | Raised _ => VNone
        end
      else VNone
  end.

(** [stored_state != received_state], the right operand being a query
    parameter: [None] or a string. *)
Definition py_ne (stored received : Value) : bool :=
  match stored, received with
  | VNone, VNone => false
  | VStr a, VStr b => negb (String.eqb a b)
  | _, _ => true
  end.

(** [OAuthService.handle_oauth_callback]. *)
Definition handle_oauth_callback (provider : string) (request : Request) : M Response :=
  stored_state <~ session_get "oauth_state" ;;
  let received_state := query_get request "state" in
  if negb (truthy stored_state) || py_ne stored_state received_state then
    raise (HTTPException HTTP_400_BAD_REQUEST "Invalid state parameter.")
  else
    _ <~ session_pop "oauth_state" VNone ;;
    match clients w !! provider with
    | None => raise (HTTPException HTTP_400_BAD_REQUEST "Invalid provider")
    | Some oauth_client =>
        token <~ get_token request provider oauth_client ;;
        let user_data := fetch_user_data oauth_client token in
        if negb (truthy user_data) then
          raise (HTTPException HTTP_400_BAD_REQUEST "Failed to fetch user data.")
        else
          _ <~ session_set "user" user_data ;;
          redirect_path <~ session_pop "redirect_path" (VStr "/success") ;;
          ret (RedirectResponse redirect_path)
    end.

(** The route [/auth/{provider}/callback]: an [HTTPException] of the
    service becomes a redirect to the failure page. *)
Definition auth_callback (provider : string) (request : Request) : M Response :=
  fun s =>
    match handle_oauth_callback provider request s with
    | (s', Raised (HTTPException _ _)) =>
        (s', Returned (RedirectResponse (VStr (url_for_failure request))))
    | r => r
    end.
End Service.

(** The route [/logout]. *)
Definition logout (request : Request) : M Response :=
  _ <~ session_clear ;;
  ret (RedirectResponse (VStr "/")).

(** ** The pages of [src/app/routes/auth.py] *)

(** What a page route answers: a template with the [user] entry of its
    context (no entry for the failure page), or a redirect.  The rendering of
    the template is the framework's. *)
Inductive Page : Type :=
| TemplateResponse (template : string) (user : option Value)
| Redirect (r : Response).

(** The route [/]. *)
Definition index (request : Request) : M Page :=
  user_data <~ session_get "user" ;;
  ret (TemplateResponse "index.html" (Some user_data)).

(** The route [/auth/{provider}]: an [HTTPException] of the service is logged
    and raised again. *)
Definition social_login (w : World) (provider : string) (request : Request)
    (redirect_path : option string) : M Response :=
  fun s =>
    match initiate_social_login w provider request redirect_path s with
    | (s', Raised (HTTPException c d)) => (s', Raised (HTTPException c d))
    | r => r
    end.

(** The route [/success]. *)
Definition success (request : Request) : M Page :=
  user_data <~ session_get "user" ;;
  if negb (truthy user_data) then
    ret (Redirect (RedirectResponse (VStr "/failure")))
  else ret (TemplateResponse "success.html" (Some user_data)).

(** The route [/failure]. *)
Definition failure (request : Request) : M Page :=
  ret (TemplateResponse "failure.html" None).

(** The session once [initiate_social_login] has dealt with its optional
    [redirect_path]. *)
Definition remember_redirect_path (redirect_path : option string) (s : Session)
    : Session :=
  match redirect_path with
  | Some p => if truthy (VStr p) then <["redirect_path" := VStr p]> s else s
  | None => s
  end.

(** ** Vocabulary of the statements *)

(** The three keys the service keeps in the session. *)
Definition service_keys : list string := ["oauth_state"; "redirect_path"; "user"].

(** The error of the state check. *)
Definition InvalidStateError : Exn :=
  HTTPException HTTP_400_BAD_REQUEST "Invalid state parameter.".

(** The error of the profile check. *)
Definition ProfileFetchError : Exn :=
  HTTPException HTTP_400_BAD_REQUEST "Failed to fetch user data.".

(** The error of the LinkedIn token exchange, carrying the upstream body. *)
Definition TokenExchangeError (body : string) : Exn :=
  HTTPException HTTP_400_BAD_REQUEST ("Failed to fetch access token: " ++ body).

(** The errors for a provider without a registered client. *)
Definition UnsupportedProviderError (e : Exn) : Prop :=
  exists d, e = HTTPException HTTP_400_BAD_REQUEST d /\
            (d = "Invalid provider" \/ exists p, d = "Unsupported provider: " ++ p).

(** The stored state is a non-empty string and the query carries the same
    string: the only sessions and requests that pass the state check. *)
Definition state_accepted (s : Session) (request : Request) : Prop :=
  exists S, S <> "" /\ s !! "oauth_state" = Some (VStr S) /\
            query_params request !! "state" = Some S.

(** The test of the state check, on the session and the request. *)
Definition state_check_rejects (s : Session) (request : Request) : bool :=
  let stored_state := default VNone (s !! "oauth_state") in
  negb (truthy stored_state) || py_ne stored_state (query_get request "state").

(** A computation leaves the entry of key [k] as it found it. *)
Definition keeps {A} (k : string) (m : M A) : Prop :=
  forall s, (m s).1 !! k = s !! k.

(** authlib's own book-keeping in the session stays away from key [k]. *)
Definition authlib_keeps (k : string) (w : World) : Prop :=
  (forall cl req uri st, keeps k (authorize_redirect w cl req uri st)) /\
  (forall cl req, keeps k (authorize_access_token w cl req)).

(** The user-info fetch yields no profile. *)
Inductive no_profile (w : World) (cl : OAuthClient) (token : Value) : Prop :=
| transport_failure e :
    client_get w cl (userinfo_url cl) token = Raised e -> no_profile w cl token
| non_success resp :
    client_get w cl (userinfo_url cl) token = Returned resp ->
    status_code resp <> 200 -> no_profile w cl token
| malformed_body resp e :
    client_get w cl (userinfo_url cl) token = Returned resp ->
    status_code resp = 200 -> json resp = Raised e -> no_profile w cl token
| empty_document resp data :
    client_get w cl (userinfo_url cl) token = Returned resp ->
    status_code resp = 200 -> json resp = Returned data ->
    truthy data = false -> no_profile w cl token.

(** ** A mocked world, as the tests of the service set one up *)

Definition mock_settings : Settings :=
  {| GOOGLE_CLIENT_ID := "g-id"; GOOGLE_CLIENT_SECRET := "g-secret";
     FACEBOOK_CLIENT_ID := "f-id"; FACEBOOK_CLIENT_SECRET := "f-secret";
     LINKEDIN_CLIENT_ID := "l-id"; LINKEDIN_CLIENT_SECRET := "l-secret" |}.

(** authlib files the pending authorization under a key of its own and drops
    it when the code is exchanged; the random source answers [rnd]; the token
    endpoint answers [token_response] and the user-info endpoint [userinfo]. *)
Definition mock_world (rnd : list byte) (token_response userinfo : Outcome HttpResponse)
    : World :=
  {| settings := mock_settings;
     os_urandom := fun n => firstn n rnd;
     authorize_redirect := fun cl _ uri st s =>
       (<["_state_" ++ name cl ++ "_" ++ st := VDict [("redirect_uri", VStr uri)]]> s,
        Returned {| location := "https://provider.example/authorize";
                    status := 302 |});
     authorize_access_token := fun cl req s =>
       match query_params req !! "state" with
       | Some st =>
           (delete ("_state_" ++ name cl ++ "_" ++ st) s,
            Returned (VDict [("access_token", VStr "mock_token")]))
       | None => (s, Raised (OtherError "mismatching_state"))
       end;
     client_get := fun _ _ _ => userinfo;
     httpx_post := fun _ _ => token_response |}.

Definition ok_response (body : Value) : Outcome HttpResponse :=
  Returned {| status_code := 200; text := ""; json := Returned body |}.

Definition mock_token : Value := VDict [("access_token", VStr "T")].

Definition mock_profile : Value :=
  VDict [("id", VStr "12345"); ("email", VStr "test@example.com")].

Definition zeros16 : list byte := repeat x00 16.
Definition ones16 : list byte := repeat x01 16.

Definition test_world : World :=
  mock_world zeros16 (ok_response mock_token) (ok_response mock_profile).

Definition mock_request (state : option string) : Request :=
  {| query_params :=
       match state with
       | Some st => <["state" := st]> (<["code" := "abc"]> ∅)
       | None => <["code" := "abc"]> ∅
       end;
     base_url := "https://example.com" |}.

(** A token endpoint that turns the code down. *)
Definition rejecting_token_endpoint : World :=
  mock_world zeros16
    (Returned {| status_code := 401; text := "invalid_grant";
                 json := Raised (OtherError "JSONDecodeError") |})
    (ok_response mock_profile).

(** A user-info document without the field [id]. *)
Definition profile_without_id : Value :=
  VDict [("email", VStr "test@example.com")].

Definition world_without_id : World :=
  mock_world zeros16 (ok_response mock_token) (ok_response profile_without_id).

(** A user-info endpoint that fails. *)
Definition failing_userinfo : World :=
  mock_world zeros16 (ok_response mock_token)
    (Returned {| status_code := 500; text := "upstream error";
                 json := Raised (OtherError "JSONDecodeError") |}).

(** A token endpoint that cannot be reached. *)
Definition unreachable_token_endpoint : World :=
  mock_world zeros16 (Raised (OtherError "ConnectError")) (ok_response mock_profile).

(** A session with all three service keys and one key of another owner. *)
Definition full_session : Session :=
  <["oauth_state" := VStr "valid_state"]>
  (<["redirect_path" := VStr "/dashboard"]>
  (<["user" := VDict [("id", VStr "old")]]>
  (<["theme" := VStr "dark"]> ∅))).

(** * Properties *)

(** Side conditions that recur: a name is not one of the three providers, a
    key is one of the three service keys, a concrete state is accepted. *)
Ltac not_a_member :=
  simpl; intros [H | [H | [H | []]]]; discriminate H.

Ltac is_listed := simpl; auto.

Ltac accepts_state S :=
  exists S; split; [discriminate | split; reflexivity].

(** ** The registry *)

Lemma clients_known (w : World) (p : string) :
  In p OAuthProvider.members -> exists cl, clients w !! p = Some cl /\ name cl = p.
Proof.
  intros [<- | [<- | [<- | []]]]; eexists; split; reflexivity.
Qed.

Lemma clients_unknown (w : World) (p : string) :
  ~ In p OAuthProvider.members -> clients w !! p = None.
Proof.
  intros Hp. unfold clients, _initialize_clients.
  rewrite !lookup_insert_ne, lookup_empty; [done | | | ];
    intros <-; apply Hp; simpl; auto.
Qed.

(** ** The state check *)

Lemma truthy_VStr (a : string) : truthy (VStr a) = true <-> a <> "".
Proof.
  simpl. destruct (String.eqb_spec a ""); simpl; split; congruence.
Qed.

Lemma state_check_accepted (s : Session) (request : Request) :
  state_accepted s request -> state_check_rejects s request = false.
Proof.
  intros (S & HS & Hst & Hq). unfold state_check_rejects, query_get.
  rewrite Hst, Hq. apply truthy_VStr in HS. simpl in *.
  rewrite HS, String.eqb_refl. reflexivity.
Qed.

Lemma state_check_rejected (s : Session) (request : Request) :
  ~ state_accepted s request -> state_check_rejects s request = true.
Proof.
  intros Hno. destruct (state_check_rejects s request) eqn:E; [reflexivity |].
  exfalso. apply Hno. unfold state_check_rejects, query_get in E.
  apply orb_false_elim in E as [Ht Hne]. apply negb_false_iff in Ht.
  destruct (s !! "oauth_state") as [v |] eqn:Hst; [| discriminate].
  simpl in Ht, Hne.
  destruct v as [| | | S | |]; try discriminate.
  destruct (query_params request !! "state") as [r |] eqn:Hq; [| discriminate].
  simpl in Hne. apply negb_false_iff, String.eqb_eq in Hne. subst r.
  exists S. split; [by apply truthy_VStr | done].
Qed.

(** What a callback does, step by step: a rejected state leaves the session
    alone; an accepted one is popped, and the session then goes through the
    token exchange before the profile is written. *)
Lemma handle_oauth_callback_trace (w : World) (p : string) (req : Request) (s : Session) :
  handle_oauth_callback w p req s =
  if state_check_rejects s req then (s, Raised InvalidStateError)
  else
    match clients w !! p with
    | None =>
        (delete "oauth_state" s,
         Raised (HTTPException HTTP_400_BAD_REQUEST "Invalid provider"))
    | Some cl =>
        match get_token w req p cl (delete "oauth_state" s) with
        | (s1, Raised e) => (s1, Raised e)
        | (s1, Returned token) =>
            let user_data := fetch_user_data w cl token in
            if truthy user_data then
              (delete "redirect_path" (<["user" := user_data]> s1),
               Returned (RedirectResponse
                           (default (VStr "/success") (s1 !! "redirect_path"))))
            else (s1, Raised ProfileFetchError)
        end
    end.
Proof.
  unfold handle_oauth_callback, state_check_rejects, bind, session_get.
  destruct (negb _ || _); [reflexivity |].
  unfold session_pop at 1. cbn iota beta.
  destruct (clients w !! p) as [cl |]; [| reflexivity].
  destruct (get_token w req p cl (delete "oauth_state" s)) as [s1 [token | e]];
    [| reflexivity].
  cbn zeta. destruct (truthy (fetch_user_data w cl token)); [| reflexivity].
  unfold session_set, session_pop, ret. cbn [negb].
  rewrite lookup_insert_ne by done. reflexivity.
Qed.

(** The token exchange reaches the session only through authlib. *)
Lemma get_token_keeps (w : World) (k : string) (req : Request) (p : string)
    (cl : OAuthClient) :
  authlib_keeps k w -> keeps k (get_token w req p cl).
Proof.
  intros [_ Hacc] s. unfold get_token.
  destruct (String.eqb p OAuthProvider.LINKEDIN); [| apply Hacc].
  unfold bind, lift, raise.
  destruct (httpx_post w _ _) as [resp | e]; [| reflexivity].
  destruct (negb _); reflexivity.
Qed.

(** Once the state check has passed, the stored state is gone for good. *)
Lemma accepted_state_is_consumed (w : World) (p : string) (req : Request)
    (s : Session) :
  authlib_keeps "oauth_state" w ->
  state_check_rejects s req = false ->
  (handle_oauth_callback w p req s).1 !! "oauth_state" = None.
Proof.
  intros Hw Hok. rewrite handle_oauth_callback_trace, Hok.
  destruct (clients w !! p) as [cl |]; [| apply lookup_delete_eq].
  pose proof (get_token_keeps w "oauth_state" req p cl Hw (delete "oauth_state" s)) as Hk.
  destruct (get_token w req p cl (delete "oauth_state" s)) as [s1 [token | e]];
    cbn [fst] in Hk; rewrite lookup_delete_eq in Hk; [| exact Hk].
  cbn zeta. destruct (truthy _); cbn [fst]; [| exact Hk].
  rewrite lookup_delete_ne, lookup_insert_ne by done. exact Hk.
Qed.

Lemma handle_oauth_callback_rejected (w : World) (p : string) (req : Request)
    (s : Session) :
  ~ state_accepted s req ->
  handle_oauth_callback w p req s = (s, Raised InvalidStateError).
Proof.
  intros Hno. rewrite handle_oauth_callback_trace.
  by rewrite (state_check_rejected s req Hno).
Qed.

Lemma falsy_state_not_accepted (s : Session) (req : Request) (v : Value) :
  s !! "oauth_state" = Some v -> truthy v = false -> ~ state_accepted s req.
Proof.
  intros Hst Hf (S & HS & Hst' & _). rewrite Hst in Hst'.
  injection Hst' as ->. apply truthy_VStr in HS. congruence.
Qed.

(** The mocked authlib only writes under keys that begin with [_state_]. *)
Lemma mock_world_keeps (k : string) rnd token_response userinfo :
  In k service_keys -> authlib_keeps k (mock_world rnd token_response userinfo).
Proof.
  intros Hk. split.
  - intros cl req uri st s. cbn [authorize_redirect mock_world fst].
    apply lookup_insert_ne. intros <-.
    destruct Hk as [H | [H | [H | []]]]; discriminate H.
  - intros cl req s. cbn [authorize_access_token mock_world].
    destruct (query_params req !! "state"); [| reflexivity].
    cbn [fst]. apply lookup_delete_ne. intros <-.
    destruct Hk as [H | [H | [H | []]]]; discriminate H.
Qed.

(** ** Redirects *)

(** A string of URL-safe characters goes into the [Location] header as it
    is. *)
Lemma quote_url_safe (d : string) :
  all_chars url_safe d = true -> quote redirect_safe d = d.
Proof.
  induction d as [| c d IH]; [reflexivity |].
  cbn [all_chars quote]. intros [Hc Hd]%andb_true_iff.
  unfold url_safe in Hc. rewrite Hc. by rewrite IH.
Qed.

(** ** The three tests of the repository, replayed on the mocked world *)

Example initiate_social_login_success :
  let r := initiate_social_login test_world "google" (mock_request None)
             (Some "/custom-redirect") ∅ in
  is_Some (r.1 !! "oauth_state") /\
  r.1 !! "redirect_path" = Some (VStr "/custom-redirect") /\
  status <$> (match r.2 with Returned a => Some a | Raised _ => None end) = Some 302.
Proof. repeat split. by eexists. Qed.

Example handle_oauth_callback_invalid_state :
  (handle_oauth_callback test_world "google" (mock_request (Some "invalid_state"))
     (<["oauth_state" := VStr "valid_state"]> ∅)).2
  = Raised (HTTPException HTTP_400_BAD_REQUEST "Invalid state parameter.").
Proof. reflexivity. Qed.

Example handle_oauth_callback_success :
  let r := handle_oauth_callback test_world "google"
             (mock_request (Some "valid_state"))
             (<["oauth_state" := VStr "valid_state"]> ∅) in
  r.1 !! "user" = Some mock_profile /\
  r.2 = Returned {| location := "/success"; status := 307 |}.
Proof. split; reflexivity. Qed.

(** ** The claims on the state check *)

(** C1, as the spec has it, fails: a callback whose state is rejected leaves
    the stored state in the session.  Stored state [S1], received state [S2]:
    the call raises the state error and [oauth_state] is still [S1]. *)
Lemma C1_rejected_state_stays_stored :
  handle_oauth_callback test_world "google" (mock_request (Some "S2"))
    (<["oauth_state" := VStr "S1"]> ∅)
  = (<["oauth_state" := VStr "S1"]> ∅, Raised InvalidStateError)
  /\ (handle_oauth_callback test_world "google" (mock_request (Some "S2"))
        (<["oauth_state" := VStr "S1"]> ∅)).1 !! "oauth_state"
     = Some (VStr "S1").
Proof. split; reflexivity. Qed.

(** C1, amended: the stored state is consumed by the callbacks that pass the
    state check, whatever happens afterwards (unknown provider, failed token
    exchange, failed profile fetch, success); a callback that fails the check
    raises the state error and leaves the whole session, the stored state
    included, as it was. *)
Theorem C1_state_consumed_once_accepted (w : World) (p : string) (req : Request)
    (s : Session) :
  authlib_keeps "oauth_state" w ->
  (state_accepted s req ->
   (handle_oauth_callback w p req s).1 !! "oauth_state" = None) /\
  (~ state_accepted s req ->
   handle_oauth_callback w p req s = (s, Raised InvalidStateError)).
Proof.
  intros Hw. split.
  - intros Hok. apply accepted_state_is_consumed; [exact Hw |].
    by apply state_check_accepted.
  - apply handle_oauth_callback_rejected.
Qed.

Lemma C1_state_consumed_once_accepted_witness :
  (handle_oauth_callback test_world "google" (mock_request (Some "valid_state"))
     (<["oauth_state" := VStr "valid_state"]> ∅)).1 !! "oauth_state" = None.
Proof.
  apply (C1_state_consumed_once_accepted test_world "google"
           (mock_request (Some "valid_state"))
           (<["oauth_state" := VStr "valid_state"]> ∅)).
  - apply mock_world_keeps. is_listed.
  - accepts_state "valid_state".
Defined.

(** C2: of two callbacks in a row that carry the same query state, the second
    one raises the state error.  Either the first failed the state check, and
    the second meets the same stored state and fails alike, or the first
    passed it and popped the stored state before the token exchange, so that
    no stored state is left for the second, whether the first then succeeded
    or failed. *)
Theorem C2_replayed_callback_rejected (w1 w2 : World) (p1 p2 : string)
    (req1 req2 : Request) (s : Session) :
  authlib_keeps "oauth_state" w1 ->
  query_params req1 !! "state" = query_params req2 !! "state" ->
  handle_oauth_callback w2 p2 req2 (handle_oauth_callback w1 p1 req1 s).1
  = ((handle_oauth_callback w1 p1 req1 s).1, Raised InvalidStateError) /\
  (state_accepted s req1 ->
   (handle_oauth_callback w1 p1 req1 s).1 !! "oauth_state" = None).
Proof.
  intros Hw Hq. split.
  2: { intros Hok. apply accepted_state_is_consumed; [exact Hw |].
       by apply state_check_accepted. }
  apply handle_oauth_callback_rejected.
  destruct (state_check_rejects s req1) eqn:E.
  - rewrite handle_oauth_callback_trace, E. cbn [fst].
    intros (S & HS & Hst & Hq2). rewrite <- Hq in Hq2.
    assert (state_accepted s req1) as Hacc by (exists S; done).
    apply state_check_accepted in Hacc. congruence.
  - intros (S & _ & Hst & _).
    rewrite (accepted_state_is_consumed w1 p1 req1 s Hw E) in Hst. discriminate.
Qed.

Lemma C2_replayed_callback_rejected_witness :
  (handle_oauth_callback test_world "google" (mock_request (Some "valid_state"))
     (<["oauth_state" := VStr "valid_state"]> ∅)).2
  = Returned (RedirectResponse (VStr "/success")) /\
  (handle_oauth_callback test_world "google" (mock_request (Some "valid_state"))
     (handle_oauth_callback test_world "google" (mock_request (Some "valid_state"))
        (<["oauth_state" := VStr "valid_state"]> ∅)).1).2
  = Raised InvalidStateError.
Proof.
  split; [reflexivity |].
  destruct (C2_replayed_callback_rejected test_world test_world "google" "google"
              (mock_request (Some "valid_state")) (mock_request (Some "valid_state"))
              (<["oauth_state" := VStr "valid_state"]> ∅)) as [Hsecond _].
  - apply mock_world_keeps. is_listed.
  - reflexivity.
  - rewrite Hsecond. reflexivity.
Defined.

(** C3: a callback on a session without stored state, and a callback on a
    session whose stored state differs from the received one, both raise the
    same state error (HTTP 400), and the session, its [user] entry included,
    is left as it was. *)
Theorem C3_absent_or_mismatched_state_rejected (w : World) (p : string)
    (req : Request) (s : Session) :
  (s !! "oauth_state" = None \/
   exists v, s !! "oauth_state" = Some v /\ v <> query_get req "state") ->
  handle_oauth_callback w p req s
  = (s, Raised (HTTPException 400 "Invalid state parameter.")) /\
  (handle_oauth_callback w p req s).1 !! "user" = s !! "user".
Proof.
  intros Hbad.
  assert (~ state_accepted s req) as Hno.
  { intros (S & _ & Hst & Hq). destruct Hbad as [Habs | (v & Hv & Hne)].
    - congruence.
    - apply Hne. unfold query_get. rewrite Hq. congruence. }
  rewrite (handle_oauth_callback_rejected w p req s Hno). by split.
Qed.

Lemma C3_absent_or_mismatched_state_rejected_witness :
  (handle_oauth_callback test_world "google" (mock_request (Some "any")) ∅
   = (∅, Raised (HTTPException 400 "Invalid state parameter.")) /\
   (handle_oauth_callback test_world "google" (mock_request (Some "any")) ∅).1
     !! "user" = (∅ : Session) !! "user") /\
  (handle_oauth_callback test_world "google" (mock_request (Some "invalid_state"))
     (<["oauth_state" := VStr "valid_state"]> ∅)
   = (<["oauth_state" := VStr "valid_state"]> ∅,
      Raised (HTTPException 400 "Invalid state parameter.")) /\
   (handle_oauth_callback test_world "google" (mock_request (Some "invalid_state"))
     (<["oauth_state" := VStr "valid_state"]> ∅)).1 !! "user"
   = (<["oauth_state" := VStr "valid_state"]> ∅ : Session) !! "user").
Proof.
  split.
  - apply (C3_absent_or_mismatched_state_rejected test_world "google"
             (mock_request (Some "any")) ∅).
    left. reflexivity.
  - apply (C3_absent_or_mismatched_state_rejected test_world "google"
             (mock_request (Some "invalid_state"))
             (<["oauth_state" := VStr "valid_state"]> ∅)).
    right. exists (VStr "valid_state"). split; [reflexivity | discriminate].
Defined.

(** C10: a stored state that is falsy, the empty string in particular, never
    passes the check, not even against an equal received state: the callback
    raises the state error as it does for an absent stored state. *)
Theorem C10_falsy_stored_state_rejected (w : World) (p : string) (req : Request)
    (s : Session) (v : Value) :
  s !! "oauth_state" = Some v ->
  truthy v = false ->
  handle_oauth_callback w p req s = (s, Raised InvalidStateError).
Proof.
  intros Hst Hf. apply handle_oauth_callback_rejected.
  exact (falsy_state_not_accepted s req v Hst Hf).
Qed.

Lemma C10_falsy_stored_state_rejected_witness :
  query_get (mock_request (Some "")) "state" = VStr "" /\
  handle_oauth_callback test_world "google" (mock_request (Some ""))
    (<["oauth_state" := VStr ""]> ∅)
  = (<["oauth_state" := VStr ""]> ∅, Raised InvalidStateError).
Proof.
  split; [reflexivity |].
  apply (C10_falsy_stored_state_rejected test_world "google" (mock_request (Some ""))
           (<["oauth_state" := VStr ""]> ∅) (VStr "")); reflexivity.
Defined.

(** ** The claims on the provider check and on the two fetches *)

Lemma fetch_user_data_no_profile (w : World) (cl : OAuthClient) (token : Value) :
  no_profile w cl token -> truthy (fetch_user_data w cl token) = false.
Proof.
  unfold fetch_user_data.
  intros [e He | resp He Hs | resp e He Hs Hj | resp data He Hs Hj Ht]; rewrite He.
  - reflexivity.
  - apply Z.eqb_neq in Hs. by rewrite Hs.
  - apply Z.eqb_eq in Hs. by rewrite Hs, Hj.
  - apply Z.eqb_eq in Hs. by rewrite Hs, Hj.
Qed.

(** C4, as the spec has it, fails for the callback: the provider is looked up
    after the state check and after the stored state has been popped.  With
    the unknown provider [github] and a matching state the session loses its
    [oauth_state]; with a mismatched state the error is the state error. *)
Lemma C4_callback_checks_provider_after_state :
  ~ In "github" OAuthProvider.members /\
  handle_oauth_callback test_world "github" (mock_request (Some "S"))
    (<["oauth_state" := VStr "S"]> ∅)
  = (∅, Raised (HTTPException 400 "Invalid provider")) /\
  (<["oauth_state" := VStr "S"]> ∅ : Session) !! "oauth_state" <> (∅ : Session) !! "oauth_state" /\
  handle_oauth_callback test_world "github" (mock_request (Some "S2"))
    (<["oauth_state" := VStr "S1"]> ∅)
  = (<["oauth_state" := VStr "S1"]> ∅, Raised InvalidStateError) /\
  ~ UnsupportedProviderError InvalidStateError.
Proof.
  split; [| split; [reflexivity | split; [discriminate | split; [reflexivity |]]]].
  - not_a_member.
  - intros (d & Hd & [-> | (p & ->)]); discriminate Hd.
Qed.

(** C4, amended: for a provider outside the known set, login initiation
    raises the unsupported-provider error (HTTP 400) at its very start and
    leaves the session untouched; the callback checks the state first: with
    an accepted state it pops [oauth_state], writes nothing else and raises
    the unsupported-provider error (HTTP 400); with a rejected state it
    raises the state error and leaves the session untouched. *)
Theorem C4_unsupported_provider (w : World) (p : string) (req : Request)
    (redirect_path : option string) (s : Session) :
  ~ In p OAuthProvider.members ->
  initiate_social_login w p req redirect_path s
  = (s, Raised (HTTPException 400 ("Unsupported provider: " ++ p))) /\
  (state_accepted s req ->
   handle_oauth_callback w p req s
   = (delete "oauth_state" s, Raised (HTTPException 400 "Invalid provider"))) /\
  (~ state_accepted s req ->
   handle_oauth_callback w p req s = (s, Raised InvalidStateError)).
Proof.
  intros Hp. pose proof (clients_unknown w p Hp) as Hc. repeat split.
  - unfold initiate_social_login. by rewrite Hc.
  - intros Hok. rewrite handle_oauth_callback_trace.
    by rewrite (state_check_accepted s req Hok), Hc.
  - apply handle_oauth_callback_rejected.
Qed.

Lemma C4_unsupported_provider_witness :
  initiate_social_login test_world "github" (mock_request None) (Some "/custom")
    (<["user" := mock_profile]> ∅)
  = (<["user" := mock_profile]> ∅,
     Raised (HTTPException 400 "Unsupported provider: github")).
Proof.
  apply (C4_unsupported_provider test_world "github" (mock_request None)
           (Some "/custom") (<["user" := mock_profile]> ∅)).
  not_a_member.
Defined.

(** C5: for LinkedIn, when the token endpoint answers the code exchange with
    a status other than 200, the callback raises the token-exchange error
    (HTTP 400) whose detail ends with the upstream body, and the [user] entry
    of the session is not written: the session only loses the stored state
    that the check consumed. *)
Theorem C5_linkedin_token_exchange_error (w : World) (req : Request) (s : Session)
    (resp : HttpResponse) :
  state_accepted s req ->
  httpx_post w "https://www.linkedin.com/oauth/v2/accessToken"
    (linkedin_token_data w req "linkedin") = Returned resp ->
  status_code resp <> 200 ->
  handle_oauth_callback w "linkedin" req s
  = (delete "oauth_state" s,
     Raised (HTTPException 400 ("Failed to fetch access token: " ++ text resp))) /\
  (handle_oauth_callback w "linkedin" req s).1 !! "user" = s !! "user".
Proof.
  intros Hok Hpost Hst.
  assert (handle_oauth_callback w "linkedin" req s
          = (delete "oauth_state" s, Raised (TokenExchangeError (text resp)))) as E.
  { rewrite handle_oauth_callback_trace, (state_check_accepted s req Hok).
    destruct (clients_known w "linkedin") as (cl & -> & _); [simpl; auto |].
    unfold get_token. rewrite String.eqb_refl. unfold bind, lift.
    rewrite Hpost. apply Z.eqb_neq in Hst. by rewrite Hst. }
  rewrite E. split; [reflexivity |]. cbn [fst]. by rewrite lookup_delete_ne.
Qed.

Lemma C5_linkedin_token_exchange_error_witness :
  handle_oauth_callback rejecting_token_endpoint "linkedin"
    (mock_request (Some "valid_state"))
    (<["oauth_state" := VStr "valid_state"]> ∅)
  = (∅, Raised (HTTPException 400 "Failed to fetch access token: invalid_grant")) /\
  (handle_oauth_callback rejecting_token_endpoint "linkedin"
     (mock_request (Some "valid_state"))
     (<["oauth_state" := VStr "valid_state"]> ∅)).1 !! "user" = None.
Proof.
  refine (C5_linkedin_token_exchange_error rejecting_token_endpoint
            (mock_request (Some "valid_state"))
            (<["oauth_state" := VStr "valid_state"]> ∅)
            {| status_code := 401; text := "invalid_grant";
               json := Raised (OtherError "JSONDecodeError") |} _ _ _).
  - accepts_state "valid_state".
  - reflexivity.
  - simpl. lia.
Defined.

(** C6, as the spec has it, fails: the service never looks for the field
    [id].  A user-info answer of status 200 whose document has no [id] is
    stored as [session.user] and the callback redirects to the success
    path. *)
Lemma C6_profile_without_id_is_stored :
  field "id" profile_without_id = None /\
  handle_oauth_callback world_without_id "google" (mock_request (Some "S"))
    (<["oauth_state" := VStr "S"]> ∅)
  = (<["user" := profile_without_id]> ∅,
     Returned (RedirectResponse (VStr "/success"))).
Proof. split; reflexivity. Qed.

(** C6, amended: for every registered provider, once the state is accepted
    and the token exchange has returned, if the user-info fetch yields no
    profile (the request raises, the status is not 200, the body does not
    parse, or the parsed document is empty) the callback raises the
    profile-fetch error (HTTP 400) and does not write [session.user]. *)
Theorem C6_no_profile_is_an_error (w : World) (p : string) (req : Request)
    (s s1 : Session) (cl : OAuthClient) (token : Value) :
  state_accepted s req ->
  clients w !! p = Some cl ->
  get_token w req p cl (delete "oauth_state" s) = (s1, Returned token) ->
  no_profile w cl token ->
  handle_oauth_callback w p req s
  = (s1, Raised (HTTPException 400 "Failed to fetch user data.")) /\
  (authlib_keeps "user" w -> s1 !! "user" = s !! "user").
Proof.
  intros Hok Hcl Htok Hno. split.
  - rewrite handle_oauth_callback_trace, (state_check_accepted s req Hok), Hcl, Htok.
    cbn zeta. by rewrite (fetch_user_data_no_profile w cl token Hno).
  - intros Hw.
    pose proof (get_token_keeps w "user" req p cl Hw (delete "oauth_state" s)) as Hk.
    rewrite Htok in Hk. cbn [fst] in Hk. by rewrite lookup_delete_ne in Hk.
Qed.

Lemma C6_no_profile_is_an_error_witness :
  handle_oauth_callback failing_userinfo "facebook" (mock_request (Some "S"))
    (<["oauth_state" := VStr "S"]> ∅)
  = (∅, Raised (HTTPException 400 "Failed to fetch user data.")) /\
  (authlib_keeps "user" failing_userinfo ->
   (∅ : Session) !! "user" = (<["oauth_state" := VStr "S"]> ∅ : Session) !! "user").
Proof.
  refine (C6_no_profile_is_an_error failing_userinfo "facebook"
            (mock_request (Some "S")) (<["oauth_state" := VStr "S"]> ∅) ∅
            (_create_facebook_client mock_settings)
            (VDict [("access_token", VStr "mock_token")]) _ _ _ _).
  - accepts_state "S".
  - reflexivity.
  - reflexivity.
  - eapply non_success; [reflexivity | simpl; lia].
Defined.

(** C7, as the spec has it, fails: the destination that the callback answers
    is not always the removed [redirect_path] itself, for the redirect
    response percent-encodes it.  With the stored path [/next page] the
    [Location] of the answer is [/next%20page]. *)
Lemma C7_destination_is_percent_encoded :
  handle_oauth_callback test_world "google" (mock_request (Some "valid_state"))
    (<["redirect_path" := VStr "/next page"]>
       (<["oauth_state" := VStr "valid_state"]> ∅))
  = (<["user" := mock_profile]> ∅,
     Returned {| location := "/next%20page"; status := 307 |}) /\
  "/next%20page" <> "/next page".
Proof. split; [reflexivity | discriminate]. Qed.

(** C7, amended: on a session whose stored state matches the received one
    (and so is accepted: a non-empty string, the token exchange being
    reached) and whose [redirect_path], if any, is a string, when the token
    exchange returns and the profile fetch returns a profile [P] (a non-empty
    document), the callback stores [P] as [session.user] over whatever was
    there, removes [session.redirect_path], and answers a 307 redirect whose
    [Location] is the removed path percent-encoded, which is the path itself
    when all its characters are URL-safe, or [/success] when none was
    stored. *)
Theorem C7_successful_callback (w : World) (p : string) (req : Request)
    (s s1 : Session) (cl : OAuthClient) (token P : Value) (path : option string) :
  state_accepted s req ->
  clients w !! p = Some cl ->
  get_token w req p cl (delete "oauth_state" s) = (s1, Returned token) ->
  fetch_user_data w cl token = P ->
  truthy P = true ->
  authlib_keeps "redirect_path" w ->
  s !! "redirect_path" = VStr <$> path ->
  exists s' r,
    handle_oauth_callback w p req s = (s', Returned r) /\
    s' !! "user" = Some P /\
    s' !! "redirect_path" = None /\
    status r = 307 /\
    location r = quote redirect_safe (default "/success" path) /\
    (forall d, path = Some d -> all_chars url_safe d = true -> location r = d) /\
    (path = None -> location r = "/success").
Proof.
  intros Hok Hcl Htok HP Ht Hw Hpath.
  exists (delete "redirect_path" (<["user" := P]> s1)).
  exists (RedirectResponse (default (VStr "/success") (s !! "redirect_path"))).
  pose proof (get_token_keeps w "redirect_path" req p cl Hw
                (delete "oauth_state" s)) as Hk.
  rewrite Htok in Hk. cbn [fst] in Hk. rewrite lookup_delete_ne in Hk by done.
  split.
  { rewrite handle_oauth_callback_trace, (state_check_accepted s req Hok), Hcl, Htok.
    cbn zeta. by rewrite HP, Ht, Hk. }
  split; [rewrite lookup_delete_ne by done; apply lookup_insert_eq |].
  split; [apply lookup_delete_eq |].
  split; [reflexivity |].
  rewrite Hpath. destruct path as [d |]; cbn -[quote redirect_safe].
  - split; [reflexivity |]. split; [| discriminate].
    intros d' [= <-] Hsafe. by apply quote_url_safe.
  - split; [reflexivity |]. split; [discriminate | reflexivity].
Qed.

Lemma C7_successful_callback_witness :
  exists s' r,
    handle_oauth_callback test_world "google" (mock_request (Some "valid_state"))
      (<["redirect_path" := VStr "/custom-redirect"]>
         (<["oauth_state" := VStr "valid_state"]> ∅))
    = (s', Returned r) /\
    s' !! "user" = Some mock_profile /\
    s' !! "redirect_path" = None /\
    status r = 307 /\
    location r = "/custom-redirect" /\
    (forall d, Some "/custom-redirect" = Some d ->
               all_chars url_safe d = true -> location r = d) /\
    (Some "/custom-redirect" = None -> location r = "/success").
Proof.
  refine (C7_successful_callback test_world "google"
            (mock_request (Some "valid_state"))
            (<["redirect_path" := VStr "/custom-redirect"]>
               (<["oauth_state" := VStr "valid_state"]> ∅))
            (<["redirect_path" := VStr "/custom-redirect"]> ∅)
            (_create_google_client mock_settings)
            (VDict [("access_token", VStr "mock_token")]) mock_profile
            (Some "/custom-redirect") _ _ _ _ _ _ _).
  - accepts_state "valid_state".
  - reflexivity.
  - reflexivity.
  - reflexivity.
  - reflexivity.
  - apply mock_world_keeps. is_listed.
  - reflexivity.
Defined.

(** ** The state token *)

Lemma byte_of_hex_digits (b : byte) :
  byte_of_hex (hex_digit (Byte.to_N b / 16)) (hex_digit (Byte.to_N b mod 16)) = Some b.
Proof. destruct b; vm_compute; reflexivity. Qed.


Lemma hex_length (bs : list byte) :
  String.length (hex bs) = (2 * length bs)%nat.
Proof.
  induction bs as [| b bs IH]; [reflexivity |].
  cbn [hex String.length length]. rewrite IH. lia.
Qed.


Lemma hex_inj (bs1 bs2 : list byte) : hex bs1 = hex bs2 -> bs1 = bs2.
Proof.
  revert bs2. induction bs1 as [| a bs1 IH]; intros [| b bs2] H;
    try discriminate H; [reflexivity |].
  cbn [hex] in H. injection H as Hhi Hlo Hrest.
  pose proof (byte_of_hex_digits a) as Ha.
  rewrite Hhi, Hlo, byte_of_hex_digits in Ha. injection Ha as ->.
  f_equal. by apply IH.
Qed.

(** A login on a registered provider leaves the hexadecimal spelling of the
    sixteen drawn bytes under [oauth_state]. *)
Lemma initiate_social_login_state (w : World) (p : string) (req : Request)
    (redirect_path : option string) (s : Session) :
  In p OAuthProvider.members ->
  authlib_keeps "oauth_state" w ->
  (initiate_social_login w p req redirect_path s).1 !! "oauth_state"
  = Some (VStr (hex (os_urandom w 16))).
Proof.
  intros Hp [Hred _]. destruct (clients_known w p Hp) as (cl & Hcl & _).
  unfold initiate_social_login. rewrite Hcl. unfold bind at 1.
  destruct (match redirect_path with
            | Some p0 => if truthy (VStr p0)
                         then session_set "redirect_path" (VStr p0) else ret tt
            | None => ret tt
            end s) as [s0 [[] | e]] eqn:E.
  - unfold bind, session_set. rewrite Hred. apply lookup_insert_eq.
  - exfalso. destruct redirect_path as [p0 |]; [destruct (truthy (VStr p0)) |];
      discriminate E.
Qed.




(** ** Logout *)

(** C9: whatever the session holds, logout empties it and returns (a redirect
    to the root): it never raises, and a second logout on the emptied session
    does the same. *)
Theorem C9_logout_clears_session (req1 req2 : Request) (s : Session) :
  logout req1 s = (∅, Returned (RedirectResponse (VStr "/"))) /\
  (forall k, (logout req1 s).1 !! k = None) /\
  logout req2 (logout req1 s).1 = (∅, Returned (RedirectResponse (VStr "/"))).
Proof.
  split; [reflexivity | split; [| reflexivity]].
  intros k. apply lookup_empty.
Qed.

(** * Further properties of the service and of its routes *)

(** ** The registry of clients *)

Lemma clients_registered (w : World) (p : string) (cl : OAuthClient) :
  clients w !! p = Some cl -> In p OAuthProvider.members /\ name cl = p.
Proof.
  intros Hcl.
  destruct (in_dec String.string_dec p OAuthProvider.members) as [Hin | Hout].
  - split; [exact Hin |].
    destruct (clients_known w p Hin) as (cl' & Hcl' & Hname). congruence.
  - rewrite (clients_unknown w p Hout) in Hcl. discriminate.
Qed.

(** X1: the registry holds a client for exactly the three providers, and the
    client filed under a provider carries that provider's name, which is what
    the choice of the user-info endpoint goes by. *)
Theorem X1_registry_is_the_three_providers (w : World) (p : string) :
  (is_Some (clients w !! p) <-> In p OAuthProvider.members) /\
  (forall cl, clients w !! p = Some cl -> name cl = p).
Proof.
  split; [split |].
  - intros [cl Hcl]. by apply (clients_registered w p cl).
  - intros Hin. destruct (clients_known w p Hin) as (cl & Hcl & _). by exists cl.
  - intros cl Hcl. by apply (clients_registered w p cl).
Qed.

Lemma X1_registry_is_the_three_providers_witness :
  name (_create_facebook_client mock_settings) = "facebook".
Proof.
  destruct (X1_registry_is_the_three_providers test_world "facebook") as [_ Hname].
  apply Hname. reflexivity.
Defined.

(** ** Login initiation *)

(** What a login on a registered provider comes to: the redirect path is
    remembered, the fresh state is stored, and authlib is handed the callback
    address and that same state. *)
Lemma initiate_social_login_trace (w : World) (p : string) (req : Request)
    (redirect_path : option string) (s : Session) (cl : OAuthClient) :
  clients w !! p = Some cl ->
  initiate_social_login w p req redirect_path s
  = authorize_redirect w cl req (url_for_auth_callback req p)
      (hex (os_urandom w 16))
      (<["oauth_state" := VStr (hex (os_urandom w 16))]>
         (remember_redirect_path redirect_path s)).
Proof.
  intros Hcl. unfold initiate_social_login, remember_redirect_path. rewrite Hcl.
  unfold bind. destruct redirect_path as [r |]; [destruct (truthy (VStr r)) |];
    reflexivity.
Qed.

Lemma initiate_social_login_keeps (w : World) (p : string) (req : Request)
    (redirect_path : option string) (s : Session) (k : string) :
  In p OAuthProvider.members ->
  k <> "oauth_state" ->
  authlib_keeps k w ->
  (initiate_social_login w p req redirect_path s).1 !! k
  = remember_redirect_path redirect_path s !! k.
Proof.
  intros Hp Hk [Hred _]. destruct (clients_known w p Hp) as (cl & Hcl & _).
  rewrite (initiate_social_login_trace w p req redirect_path s cl Hcl), Hred.
  by rewrite lookup_insert_ne.
Qed.

Lemma hex_nonempty (bs : list byte) : length bs = 16%nat -> hex bs <> "".
Proof.
  intros Hl He. pose proof (hex_length bs) as H. rewrite He, Hl in H.
  discriminate H.
Qed.

(** X2: a login on a registered provider stores a non-empty [redirect_path]
    it is given; given none, or an empty one, it leaves the entry as it found
    it, so that a path stored by an earlier attempt stays. *)
Theorem X2_login_remembers_redirect_path (w : World) (p : string) (req : Request)
    (s : Session) :
  In p OAuthProvider.members ->
  authlib_keeps "redirect_path" w ->
  (forall r, r <> "" ->
     (initiate_social_login w p req (Some r) s).1 !! "redirect_path"
     = Some (VStr r)) /\
  (initiate_social_login w p req None s).1 !! "redirect_path"
  = s !! "redirect_path" /\
  (initiate_social_login w p req (Some "") s).1 !! "redirect_path"
  = s !! "redirect_path".
Proof.
  intros Hp Hw. repeat split; [intros r Hr | |];
    rewrite (initiate_social_login_keeps w p req _ s "redirect_path" Hp) by done;
    unfold remember_redirect_path; [| reflexivity | reflexivity].
  apply truthy_VStr in Hr. rewrite Hr. apply lookup_insert_eq.
Qed.

Lemma X2_login_remembers_redirect_path_witness :
  (initiate_social_login test_world "google" (mock_request None)
     (Some "/custom-redirect") full_session).1 !! "redirect_path"
  = Some (VStr "/custom-redirect") /\
  (initiate_social_login test_world "google" (mock_request None) None
     full_session).1 !! "redirect_path" = Some (VStr "/dashboard").
Proof.
  destruct (X2_login_remembers_redirect_path test_world "google"
              (mock_request None) full_session) as (Hsome & Hnone & _).
  - is_listed.
  - apply mock_world_keeps. is_listed.
  - split; [apply Hsome; discriminate | exact Hnone].
Defined.

(** X3: a login writes nothing but [oauth_state] and [redirect_path]: every
    other entry that authlib leaves alone, [user] among them, is as it was,
    whether the provider is registered or not.  A user who is logged in stays
    so while a new login is pending. *)
Theorem X3_login_keeps_other_entries (w : World) (p : string) (req : Request)
    (redirect_path : option string) (s : Session) (k : string) :
  k <> "oauth_state" -> k <> "redirect_path" ->
  authlib_keeps k w ->
  (initiate_social_login w p req redirect_path s).1 !! k = s !! k.
Proof.
  intros Hk1 Hk2 Hw.
  destruct (in_dec String.string_dec p OAuthProvider.members) as [Hin | Hout].
  - rewrite (initiate_social_login_keeps w p req redirect_path s k Hin Hk1 Hw).
    unfold remember_redirect_path.
    destruct redirect_path as [r |]; [destruct (truthy (VStr r)) |];
      try reflexivity.
    by rewrite lookup_insert_ne.
  - unfold initiate_social_login. by rewrite (clients_unknown w p Hout).
Qed.

Lemma X3_login_keeps_other_entries_witness :
  (initiate_social_login test_world "linkedin" (mock_request None)
     (Some "/custom-redirect") full_session).1 !! "user"
  = Some (VDict [("id", VStr "old")]).
Proof.
  refine (X3_login_keeps_other_entries test_world "linkedin" (mock_request None)
            (Some "/custom-redirect") full_session "user" _ _ _).
  - discriminate.
  - discriminate.
  - apply mock_world_keeps. is_listed.
Defined.



(** X5: a second login supersedes the first.  Once two logins in a row have
    drawn different states, a callback that brings the state of the first is
    turned down with the state error and the session is left alone. *)
Theorem X5_second_login_supersedes_first (w1 w2 w3 : World) (p1 p2 p3 : string)
    (req1 req2 req3 : Request) (rp1 rp2 : option string) (s : Session) :
  In p2 OAuthProvider.members ->
  authlib_keeps "oauth_state" w2 ->
  os_urandom w1 16 <> os_urandom w2 16 ->
  query_params req3 !! "state" = Some (hex (os_urandom w1 16)) ->
  handle_oauth_callback w3 p3 req3
    (initiate_social_login w2 p2 req2 rp2
       (initiate_social_login w1 p1 req1 rp1 s).1).1
  = ((initiate_social_login w2 p2 req2 rp2
        (initiate_social_login w1 p1 req1 rp1 s).1).1,
     Raised InvalidStateError).
Proof.
  intros Hp Hw Hne Hq. apply handle_oauth_callback_rejected.
  intros (S & _ & HS & Hq').
  rewrite (initiate_social_login_state w2 p2 req2 rp2 _ Hp Hw) in HS.
  apply Hne, hex_inj. congruence.
Qed.

Lemma X5_second_login_supersedes_first_witness :
  (handle_oauth_callback test_world "google"
     (mock_request (Some "00000000000000000000000000000000"))
     (initiate_social_login
        (mock_world ones16 (ok_response mock_token) (ok_response mock_profile))
        "google" (mock_request None) None
        (initiate_social_login test_world "google" (mock_request None) None ∅).1).1).2
  = Raised InvalidStateError.
Proof.
  rewrite (X5_second_login_supersedes_first test_world
             (mock_world ones16 (ok_response mock_token) (ok_response mock_profile))
             test_world "google" "google" "google"
             (mock_request None) (mock_request None)
             (mock_request (Some "00000000000000000000000000000000"))
             None None ∅).
  - reflexivity.
  - is_listed.
  - apply mock_world_keeps. is_listed.
  - vm_compute. discriminate.
  - reflexivity.
Defined.

(** ** The callback *)

Lemma state_check_passed (s : Session) (request : Request) :
  state_check_rejects s request = false -> state_accepted s request.
Proof.
  unfold state_check_rejects, query_get. intros E.
  apply orb_false_elim in E as [Ht Hne]. apply negb_false_iff in Ht.
  destruct (s !! "oauth_state") as [v |] eqn:Hst; [| discriminate].
  simpl in Ht, Hne. destruct v as [| | | S | |]; try discriminate.
  destruct (query_params request !! "state") as [r |] eqn:Hq; [| discriminate].
  simpl in Hne. apply negb_false_iff, String.eqb_eq in Hne. subst r.
  exists S. split; [by apply truthy_VStr | done].
Qed.

(** A callback that returns has gone all the way: accepted state, registered
    client, returned token, non-empty profile. *)
Lemma handle_oauth_callback_returned (w : World) (p : string) (req : Request)
    (s s' : Session) (r : Response) :
  handle_oauth_callback w p req s = (s', Returned r) ->
  state_accepted s req /\
  exists cl s1 token,
    clients w !! p = Some cl /\
    get_token w req p cl (delete "oauth_state" s) = (s1, Returned token) /\
    truthy (fetch_user_data w cl token) = true /\
    s' = delete "redirect_path" (<["user" := fetch_user_data w cl token]> s1) /\
    r = RedirectResponse (default (VStr "/success") (s1 !! "redirect_path")).
Proof.
  rewrite handle_oauth_callback_trace.
  destruct (state_check_rejects s req) eqn:E; [discriminate |].
  apply state_check_passed in E.
  destruct (clients w !! p) as [cl |]; [| discriminate].
  destruct (get_token w req p cl (delete "oauth_state" s)) as [s1 [token | e]] eqn:Ht;
    [| discriminate].
  cbn zeta. destruct (truthy (fetch_user_data w cl token)) eqn:Hu; [| discriminate].
  intros [= <- <-]. split; [exact E |]. by exists cl, s1, token.
Qed.

(** X6: a callback returns only on an accepted state and a registered
    provider; it then leaves a non-empty profile in [user], no
    [redirect_path], and answers a 307 redirect.  No session comes to hold a
    user through a callback whose state was not the stored one. *)
Theorem X6_callback_returns_only_when_accepted (w : World) (p : string)
    (req : Request) (s s' : Session) (r : Response) :
  handle_oauth_callback w p req s = (s', Returned r) ->
  state_accepted s req /\
  In p OAuthProvider.members /\
  (exists P, s' !! "user" = Some P /\ truthy P = true) /\
  s' !! "redirect_path" = None /\
  status r = 307.
Proof.
  intros H. apply handle_oauth_callback_returned in H
    as (Hok & cl & s1 & token & Hcl & _ & Hu & -> & ->).
  split; [exact Hok |]. split; [by apply (clients_registered w p cl) |].
  split; [| split; [apply lookup_delete_eq | reflexivity]].
  exists (fetch_user_data w cl token). split; [| exact Hu].
  rewrite lookup_delete_ne by done. apply lookup_insert_eq.
Qed.

Lemma X6_callback_returns_only_when_accepted_witness :
  state_accepted (<["oauth_state" := VStr "valid_state"]> ∅)
    (mock_request (Some "valid_state")) /\
  In "google" OAuthProvider.members /\
  (exists P, (<["user" := mock_profile]> ∅ : Session) !! "user" = Some P /\
             truthy P = true) /\
  (<["user" := mock_profile]> ∅ : Session) !! "redirect_path" = None /\
  status (RedirectResponse (VStr "/success")) = 307.
Proof.
  refine (X6_callback_returns_only_when_accepted test_world "google"
            (mock_request (Some "valid_state"))
            (<["oauth_state" := VStr "valid_state"]> ∅)
            (<["user" := mock_profile]> ∅)
            (RedirectResponse (VStr "/success")) _).
  reflexivity.
Defined.

(** A callback that raises has written nothing but the removal of
    [oauth_state]. *)
Lemma handle_oauth_callback_raised_keeps (w : World) (p : string) (req : Request)
    (s s' : Session) (e : Exn) (k : string) :
  k <> "oauth_state" ->
  authlib_keeps k w ->
  handle_oauth_callback w p req s = (s', Raised e) ->
  s' !! k = s !! k.
Proof.
  intros Hk Hw. rewrite handle_oauth_callback_trace.
  destruct (state_check_rejects s req); [by intros [= <- _] |].
  destruct (clients w !! p) as [cl |];
    [| intros [= <- _]; by rewrite lookup_delete_ne].
  pose proof (get_token_keeps w k req p cl Hw (delete "oauth_state" s)) as Hkeep.
  rewrite lookup_delete_ne in Hkeep by done.
  destruct (get_token w req p cl (delete "oauth_state" s)) as [s1 [token | e1]];
    cbn [fst] in Hkeep; [| by intros [= <- _]].
  cbn zeta. destruct (truthy (fetch_user_data w cl token)); [discriminate |].
  by intros [= <- _].
Qed.

(** X7: a callback that raises, for whatever reason, has written neither
    [user] nor [redirect_path]: apart from [oauth_state], every entry that
    authlib leaves alone is as it was, so a failed attempt neither logs
    anyone in or out nor loses the destination of the pending login. *)
Theorem X7_failed_callback_keeps_entries (w : World) (p : string) (req : Request)
    (s s' : Session) (e : Exn) (k : string) :
  k <> "oauth_state" ->
  authlib_keeps k w ->
  handle_oauth_callback w p req s = (s', Raised e) ->
  s' !! k = s !! k.
Proof. exact (handle_oauth_callback_raised_keeps w p req s s' e k). Qed.

Lemma X7_failed_callback_keeps_entries_witness :
  (delete "oauth_state" full_session : Session) !! "redirect_path"
  = full_session !! "redirect_path".
Proof.
  refine (X7_failed_callback_keeps_entries failing_userinfo "facebook"
            (mock_request (Some "valid_state")) full_session
            (delete "oauth_state" full_session) ProfileFetchError
            "redirect_path" _ _ _).
  - discriminate.
  - apply mock_world_keeps. is_listed.
  - reflexivity.
Defined.

(** X8: whatever its outcome, a callback touches none but the three service
    keys: an entry under any other key that authlib leaves alone is as it
    was. *)
Theorem X8_callback_keeps_foreign_entries (w : World) (p : string) (req : Request)
    (s : Session) (k : string) :
  ~ In k service_keys ->
  authlib_keeps k w ->
  (handle_oauth_callback w p req s).1 !! k = s !! k.
Proof.
  intros Hk Hw.
  assert (k <> "oauth_state" /\ k <> "redirect_path" /\ k <> "user")
    as (Hk1 & Hk2 & Hk3) by (repeat split; intros ->; apply Hk; simpl; auto).
  destruct (handle_oauth_callback w p req s) as [s' [r | e]] eqn:H; cbn [fst].
  - apply handle_oauth_callback_returned in H
      as (_ & cl & s1 & token & _ & Ht & _ & -> & _).
    pose proof (get_token_keeps w k req p cl Hw (delete "oauth_state" s)) as Hkeep.
    rewrite Ht in Hkeep. cbn [fst] in Hkeep.
    by rewrite lookup_delete_ne, lookup_insert_ne, Hkeep, lookup_delete_ne.
  - by apply (handle_oauth_callback_raised_keeps w p req s s' e k).
Qed.

Lemma mock_world_keeps_theme rnd token_response userinfo :
  authlib_keeps "theme" (mock_world rnd token_response userinfo).
Proof.
  split.
  - intros cl req uri st s. cbn [authorize_redirect mock_world fst].
    apply lookup_insert_ne. discriminate.
  - intros cl req s. cbn [authorize_access_token mock_world].
    destruct (query_params req !! "state"); [| reflexivity].
    cbn [fst]. apply lookup_delete_ne. discriminate.
Qed.

Lemma X8_callback_keeps_foreign_entries_witness :
  (handle_oauth_callback test_world "google" (mock_request (Some "valid_state"))
     full_session).2 = Returned (RedirectResponse (VStr "/dashboard")) /\
  (handle_oauth_callback test_world "google" (mock_request (Some "valid_state"))
     full_session).1 !! "theme" = Some (VStr "dark").
Proof.
  split; [reflexivity |].
  refine (X8_callback_keeps_foreign_entries test_world "google"
            (mock_request (Some "valid_state")) full_session "theme" _ _).
  - not_a_member.
  - apply mock_world_keeps_theme.
Defined.

(** X9: the whole flow.  A login that is given a non-empty [redirect_path],
    followed by the callback that brings back the issued state and whose
    token exchange and profile fetch succeed, stores the profile and answers
    a 307 redirect whose [Location] is that path percent-encoded: the path
    itself when all its characters are URL-safe. *)
Theorem X9_login_then_callback_reaches_redirect_path (w1 w2 : World) (p : string)
    (req1 req2 : Request) (r : string) (s s2 : Session) (cl : OAuthClient)
    (token : Value) :
  In p OAuthProvider.members ->
  r <> "" ->
  authlib_keeps "oauth_state" w1 -> authlib_keeps "redirect_path" w1 ->
  authlib_keeps "redirect_path" w2 ->
  length (os_urandom w1 16) = 16%nat ->
  query_params req2 !! "state" = Some (hex (os_urandom w1 16)) ->
  clients w2 !! p = Some cl ->
  get_token w2 req2 p cl
    (delete "oauth_state" (initiate_social_login w1 p req1 (Some r) s).1)
  = (s2, Returned token) ->
  truthy (fetch_user_data w2 cl token) = true ->
  exists resp,
    handle_oauth_callback w2 p req2
      (initiate_social_login w1 p req1 (Some r) s).1
    = (delete "redirect_path" (<["user" := fetch_user_data w2 cl token]> s2),
       Returned resp) /\
    status resp = 307 /\
    location resp = quote redirect_safe r /\
    (all_chars url_safe r = true -> location resp = r).
Proof.
  intros Hp Hr Hst1 Hrp1 Hrp2 Hl Hq Hcl Htok Hu.
  set (s1 := (initiate_social_login w1 p req1 (Some r) s).1) in *.
  assert (state_accepted s1 req2) as Hok.
  { exists (hex (os_urandom w1 16)). split; [by apply hex_nonempty |].
    split; [| exact Hq]. by apply initiate_social_login_state. }
  assert (s2 !! "redirect_path" = Some (VStr r)) as Hpath.
  { pose proof (get_token_keeps w2 "redirect_path" req2 p cl Hrp2
                  (delete "oauth_state" s1)) as Hk.
    rewrite Htok in Hk. cbn [fst] in Hk. rewrite Hk, lookup_delete_ne by done.
    unfold s1.
    rewrite (initiate_social_login_keeps w1 p req1 (Some r) s "redirect_path" Hp)
      by done.
    unfold remember_redirect_path. apply truthy_VStr in Hr. rewrite Hr.
    apply lookup_insert_eq. }
  exists (RedirectResponse (VStr r)). split.
  { rewrite handle_oauth_callback_trace, (state_check_accepted s1 req2 Hok), Hcl, Htok.
    cbn zeta. by rewrite Hu, Hpath. }
  split; [reflexivity |]. split; [reflexivity |].
  intros Hsafe. by apply quote_url_safe.
Qed.

Lemma X9_login_then_callback_reaches_redirect_path_witness :
  exists resp,
    handle_oauth_callback test_world "google"
      (mock_request (Some "00000000000000000000000000000000"))
      (initiate_social_login test_world "google" (mock_request None)
         (Some "/next page") ∅).1
    = (<["user" := mock_profile]> ∅, Returned resp) /\
    status resp = 307 /\
    location resp = "/next%20page" /\
    (all_chars url_safe "/next page" = true -> location resp = "/next page").
Proof.
  refine (X9_login_then_callback_reaches_redirect_path test_world test_world
            "google" (mock_request None)
            (mock_request (Some "00000000000000000000000000000000"))
            "/next page" ∅
            (<["redirect_path" := VStr "/next page"]> ∅)
            (_create_google_client mock_settings)
            (VDict [("access_token", VStr "mock_token")]) _ _ _ _ _ _ _ _ _ _).
  - is_listed.
  - discriminate.
  - apply mock_world_keeps. is_listed.
  - apply mock_world_keeps. is_listed.
  - apply mock_world_keeps. is_listed.
  - reflexivity.
  - reflexivity.
  - reflexivity.
  - reflexivity.
  - reflexivity.
Defined.

(** ** The LinkedIn exchange *)

(** The LinkedIn exchange goes through httpx and never sees the session. *)
Lemma get_token_linkedin_session (w : World) (req : Request) (cl : OAuthClient)
    (s : Session) :
  (get_token w req "linkedin" cl s).1 = s.
Proof.
  unfold get_token. rewrite String.eqb_refl. unfold bind, lift, raise.
  destruct (httpx_post w _ _) as [resp | e]; [| reflexivity].
  destruct (negb _); reflexivity.
Qed.

(** X10: for LinkedIn the session after an accepted callback is known
    outright, whatever the collaborators answer: either the call raises and
    the session has lost [oauth_state] and nothing else, or it returns a 307
    redirect and the session has besides a non-empty profile under [user]
    and no [redirect_path]. *)
Theorem X10_linkedin_callback_session (w : World) (req : Request) (s : Session) :
  state_accepted s req ->
  (exists e,
     handle_oauth_callback w "linkedin" req s
     = (delete "oauth_state" s, Raised e)) \/
  (exists P resp,
     truthy P = true /\
     status resp = 307 /\
     handle_oauth_callback w "linkedin" req s
     = (delete "redirect_path" (<["user" := P]> (delete "oauth_state" s)),
        Returned resp)).
Proof.
  intros Hok. rewrite handle_oauth_callback_trace, (state_check_accepted s req Hok).
  destruct (clients_known w "linkedin") as (cl & -> & _); [is_listed |].
  pose proof (get_token_linkedin_session w req cl (delete "oauth_state" s)) as Hs.
  destruct (get_token w req "linkedin" cl (delete "oauth_state" s))
    as [s1 [token | e]]; cbn [fst] in Hs; subst s1.
  - cbn zeta. destruct (truthy (fetch_user_data w cl token)) eqn:Hu.
    + right. eexists (fetch_user_data w cl token), _.
      split; [exact Hu |]. split; [| reflexivity]. reflexivity.
    + left. by eexists.
  - left. by eexists.
Qed.

Lemma X10_linkedin_callback_session_witness :
  (exists e,
     handle_oauth_callback test_world "linkedin"
       (mock_request (Some "valid_state")) full_session
     = (delete "oauth_state" full_session, Raised e)) \/
  (exists P resp,
     truthy P = true /\
     status resp = 307 /\
     handle_oauth_callback test_world "linkedin"
       (mock_request (Some "valid_state")) full_session
     = (delete "redirect_path" (<["user" := P]> (delete "oauth_state" full_session)),
        Returned resp)).
Proof.
  apply (X10_linkedin_callback_session test_world
           (mock_request (Some "valid_state")) full_session).
  accepts_state "valid_state".
Defined.

(** X11: a LinkedIn token exchange that fails below HTTP (the request itself
    raises), or whose 200 answer does not parse, is not turned into an HTTP
    400: the callback raises that very exception, after having consumed the
    state, and the callback route, which catches [HTTPException] only, lets
    it through. *)
Theorem X11_linkedin_raw_failure_propagates (w : World) (req : Request)
    (s : Session) (e : Exn) :
  state_accepted s req ->
  (httpx_post w "https://www.linkedin.com/oauth/v2/accessToken"
     (linkedin_token_data w req "linkedin") = Raised e \/
   exists resp,
     httpx_post w "https://www.linkedin.com/oauth/v2/accessToken"
       (linkedin_token_data w req "linkedin") = Returned resp /\
     status_code resp = 200 /\ json resp = Raised e) ->
  handle_oauth_callback w "linkedin" req s = (delete "oauth_state" s, Raised e) /\
  (forall what, e = OtherError what ->
     auth_callback w "linkedin" req s
     = (delete "oauth_state" s, Raised (OtherError what))).
Proof.
  intros Hok Hfail.
  assert (handle_oauth_callback w "linkedin" req s
          = (delete "oauth_state" s, Raised e)) as E.
  { rewrite handle_oauth_callback_trace, (state_check_accepted s req Hok).
    destruct (clients_known w "linkedin") as (cl & -> & _); [is_listed |].
    unfold get_token. rewrite String.eqb_refl. unfold bind, lift.
    destruct Hfail as [-> | (resp & -> & Hs & Hj)]; [reflexivity |].
    apply Z.eqb_eq in Hs. by rewrite Hs, Hj. }
  split; [exact E |]. intros what ->. unfold auth_callback. by rewrite E.
Qed.

Lemma X11_linkedin_raw_failure_propagates_witness :
  auth_callback unreachable_token_endpoint "linkedin"
    (mock_request (Some "valid_state"))
    (<["oauth_state" := VStr "valid_state"]> ∅)
  = (∅, Raised (OtherError "ConnectError")).
Proof.
  refine (proj2 (X11_linkedin_raw_failure_propagates unreachable_token_endpoint
                   (mock_request (Some "valid_state"))
                   (<["oauth_state" := VStr "valid_state"]> ∅)
                   (OtherError "ConnectError") _ _) "ConnectError" _).
  - accepts_state "valid_state".
  - left. reflexivity.
  - reflexivity.
Defined.

(** ** The profile fetch *)

(** X12: the profile fetch fails in the four listed ways and in no other:
    its result is empty exactly when the request raises, the status is not
    200, the body does not parse, or the parsed document is empty; and a 200
    answer that parses is handed on as it is, field for field. *)
Theorem X12_fetch_user_data_outcomes (w : World) (cl : OAuthClient) (token : Value) :
  (truthy (fetch_user_data w cl token) = false <-> no_profile w cl token) /\
  (forall resp data,
     client_get w cl (userinfo_url cl) token = Returned resp ->
     status_code resp = 200 -> json resp = Returned data ->
     fetch_user_data w cl token = data).
Proof.
  split; [split; [| apply fetch_user_data_no_profile] |].
  - unfold fetch_user_data.
    destruct (client_get w cl (userinfo_url cl) token) as [resp | e] eqn:Hget;
      [| intros _; by eapply transport_failure].
    destruct (Z.eqb_spec (status_code resp) 200) as [Hs | Hs];
      [| intros _; by eapply non_success].
    destruct (json resp) as [data | e] eqn:Hj;
      [| intros _; by eapply malformed_body].
    intros Hd. by eapply empty_document.
  - intros resp data Hget Hs Hj. unfold fetch_user_data.
    apply Z.eqb_eq in Hs. by rewrite Hget, Hs, Hj.
Qed.

Lemma X12_fetch_user_data_outcomes_witness :
  no_profile failing_userinfo (_create_google_client mock_settings) mock_token /\
  fetch_user_data world_without_id (_create_google_client mock_settings) mock_token
  = profile_without_id.
Proof.
  split.
  - apply (X12_fetch_user_data_outcomes failing_userinfo
             (_create_google_client mock_settings) mock_token).
    reflexivity.
  - refine (proj2 (X12_fetch_user_data_outcomes world_without_id
                     (_create_google_client mock_settings) mock_token)
              {| status_code := 200; text := ""; json := Returned profile_without_id |}
              profile_without_id _ _ _); reflexivity.
Defined.

(** ** The routes *)

(** X13: the callback route never raises an [HTTPException].  It leaves the
    session as the service left it; whatever [HTTPException] the service
    raised, with whatever detail, the answer is the one redirect to the
    failure page; what the service returned is returned. *)
Theorem X13_callback_route_hides_http_errors (w : World) (p : string)
    (req : Request) (s : Session) :
  (auth_callback w p req s).1 = (handle_oauth_callback w p req s).1 /\
  (forall c d, (auth_callback w p req s).2 <> Raised (HTTPException c d)) /\
  (forall c d,
     (handle_oauth_callback w p req s).2 = Raised (HTTPException c d) ->
     (auth_callback w p req s).2
     = Returned (RedirectResponse (VStr (base_url req ++ "/failure")))) /\
  (forall r,
     (handle_oauth_callback w p req s).2 = Returned r ->
     (auth_callback w p req s).2 = Returned r).
Proof.
  unfold auth_callback.
  destruct (handle_oauth_callback w p req s) as [s' [r | [c d | what]]];
    cbn [fst snd]; repeat split; try discriminate; try congruence.
Qed.

Lemma X13_callback_route_hides_http_errors_witness :
  (auth_callback rejecting_token_endpoint "linkedin"
     (mock_request (Some "valid_state"))
     (<["oauth_state" := VStr "valid_state"]> ∅)).2
  = Returned (RedirectResponse (VStr "https://example.com/failure")).
Proof.
  refine (proj1 (proj2 (proj2 (X13_callback_route_hides_http_errors
                                 rejecting_token_endpoint "linkedin"
                                 (mock_request (Some "valid_state"))
                                 (<["oauth_state" := VStr "valid_state"]> ∅))))
            400 "Failed to fetch access token: invalid_grant" _).
  reflexivity.
Defined.

(** The login route raises again what it catches: session and outcome are
    those of the service. *)
Lemma social_login_reraises (w : World) (p : string) (req : Request)
    (redirect_path : option string) (s : Session) :
  social_login w p req redirect_path s
  = initiate_social_login w p req redirect_path s.
Proof.
  unfold social_login.
  by destruct (initiate_social_login w p req redirect_path s)
    as [s' [r | [c d | what]]].
Qed.

(** X14: for every registered provider, the login route hands authlib the
    very state it has just stored in the session, together with the address
    of that provider's callback route, and answers what authlib answers. *)
Theorem X14_login_hands_out_stored_state (w : World) (p : string) (req : Request)
    (redirect_path : option string) (s : Session) (cl : OAuthClient) :
  clients w !! p = Some cl ->
  exists s0,
    social_login w p req redirect_path s
    = authorize_redirect w cl req (base_url req ++ "/auth/" ++ p ++ "/callback")
        (hex (os_urandom w 16)) s0 /\
    s0 !! "oauth_state" = Some (VStr (hex (os_urandom w 16))).
Proof.
  intros Hcl. eexists. split.
  - rewrite social_login_reraises.
    by apply initiate_social_login_trace.
  - apply lookup_insert_eq.
Qed.

Lemma X14_login_hands_out_stored_state_witness :
  exists s0,
    social_login test_world "facebook" (mock_request None) None full_session
    = authorize_redirect test_world (_create_facebook_client mock_settings)
        (mock_request None) "https://example.com/auth/facebook/callback"
        "00000000000000000000000000000000" s0 /\
    s0 !! "oauth_state" = Some (VStr "00000000000000000000000000000000").
Proof.
  refine (X14_login_hands_out_stored_state test_world "facebook"
            (mock_request None) None full_session
            (_create_facebook_client mock_settings) _).
  reflexivity.
Defined.

(** X15: after a callback that returned, the success page and the index page
    both show the profile that the callback stored, and leave the session as
    it is. *)
Theorem X15_pages_show_the_stored_profile (w : World) (p : string)
    (req req' : Request) (s s' : Session) (r : Response) :
  handle_oauth_callback w p req s = (s', Returned r) ->
  exists P,
    s' !! "user" = Some P /\
    success req' s' = (s', Returned (TemplateResponse "success.html" (Some P))) /\
    index req' s' = (s', Returned (TemplateResponse "index.html" (Some P))).
Proof.
  intros H. apply handle_oauth_callback_returned in H
    as (_ & cl & s1 & token & _ & _ & Hu & -> & _).
  exists (fetch_user_data w cl token).
  assert (delete "redirect_path" (<["user" := fetch_user_data w cl token]> s1)
            !! "user" = Some (fetch_user_data w cl token)) as Hl.
  { rewrite lookup_delete_ne by done. apply lookup_insert_eq. }
  split; [exact Hl |].
  unfold success, index, bind, session_get, ret. rewrite Hl. cbn [default from_option id].
  simpl. by rewrite Hu.
Qed.

Lemma X15_pages_show_the_stored_profile_witness :
  exists P,
    (<["user" := mock_profile]> ∅ : Session) !! "user" = Some P /\
    success (mock_request None) (<["user" := mock_profile]> ∅)
    = (<["user" := mock_profile]> ∅,
       Returned (TemplateResponse "success.html" (Some P))) /\
    index (mock_request None) (<["user" := mock_profile]> ∅)
    = (<["user" := mock_profile]> ∅,
       Returned (TemplateResponse "index.html" (Some P))).
Proof.
  refine (X15_pages_show_the_stored_profile test_world "google"
            (mock_request (Some "valid_state")) (mock_request None)
            (<["oauth_state" := VStr "valid_state"]> ∅)
            (<["user" := mock_profile]> ∅)
            (RedirectResponse (VStr "/success")) _).
  reflexivity.
Defined.

(** X16: after a logout, whatever the session held, the success page
    redirects to [/failure] and the index page shows no user. *)
Theorem X16_pages_after_logout (req0 req : Request) (s : Session) :
  success req (logout req0 s).1
  = (∅, Returned (Redirect (RedirectResponse (VStr "/failure")))) /\
  index req (logout req0 s).1
  = (∅, Returned (TemplateResponse "index.html" (Some VNone))).
Proof. split; reflexivity. Qed.

(** X17: the success page renders only for a session that holds a non-empty
    [user]; for any other session (no user, or an empty one) it redirects to
    [/failure].  Neither case writes the session. *)
Theorem X17_success_page_needs_a_user (req : Request) (s : Session) :
  (success req s).1 = s /\
  ((exists P, (success req s).2 = Returned (TemplateResponse "success.html" (Some P)))
   <-> exists P, s !! "user" = Some P /\ truthy P = true) /\
  ((success req s).2 = Returned (Redirect (RedirectResponse (VStr "/failure")))
   <-> ~ exists P, s !! "user" = Some P /\ truthy P = true).
Proof.
  unfold success, bind, session_get, ret.
  destruct (s !! "user") as [P |] eqn:Hu; simpl;
    [destruct (truthy P) eqn:Ht; simpl |];
    (split; [reflexivity |]); split; split.
  - intros _. by exists P.
  - intros _. by exists P.
  - discriminate.
  - intros Hno. exfalso. apply Hno. by exists P.
  - intros [? [=]].
  - intros (? & [= <-] & ?). congruence.
  - intros _ (? & [= <-] & ?). congruence.
  - done.
  - intros [? [=]].
  - intros (? & [=] & _).
  - intros _ (? & [=] & _).
  - done.
Qed.

Lemma X17_success_page_needs_a_user_witness :
  (success (mock_request None) (<["user" := VDict []]> ∅)).2
  = Returned (Redirect (RedirectResponse (VStr "/failure"))).
Proof.
  apply (X17_success_page_needs_a_user (mock_request None)
           (<["user" := VDict []]> ∅)).
  intros (P & [= <-] & Ht). discriminate Ht.
Defined.
